(** * Field blocks of wagtail.wagtailcore.blocks.field_block

    A shallow embedding of [field_block.py]: the form-field adapters
    (blocks) that convert editor input between its native value, its
    stored form and its rendering.  Python objects are records of their
    attributes and methods, a call that may raise returns an [outcome],
    and the database table behind a chooser is a finite map from primary
    key to record. *)

From Stdlib Require Import ZArith String Ascii List Bool.
From stdpp Require Import base gmap strings.

Local Open Scope Z_scope.
Local Open Scope string_scope.

(** ** Python values and exceptions *)

(** [datetime.date], [datetime.time] and [datetime.datetime] objects. *)
Record date := mkdate { year : Z; month : Z; day : Z }.
Record time := mktime { hour : Z; minute : Z; second : Z; microsecond : Z }.
Record datetime := mkdatetime { dt_date : date; dt_time : time }.

(** A model instance (a row of a table, loaded as an object): the classes
    it is an instance of (its own class first, then the bases), the [id]
    column, and the two attributes of a page that this module reads. *)
Record instance := mkinstance {
  classes : list string;
  id : Z;
  url : string;
  title : string
}.

(** [Model.pk] is the alias of the primary-key attribute, the [id] column. *)
Definition pk (m : instance) : Z := id m.

(** The values that reach a block: [None], text (plain, or marked safe
    for HTML output), integers, the native date and time objects, and
    model instances. *)
Inductive pyvalue :=
| VNone
| VStr (s : string)
| VSafe (s : string)
| VInt (n : Z)
| VDate (d : date)
| VTime (t : time)
| VDateTime (d : datetime)
| VInstance (m : instance).

Inductive exn :=
| TypeError
| ValueError
| AttributeError
| DoesNotExist
| ValidationError (codes : list string).

(** The result of a call: a returned value or a raised exception. *)
Inductive outcome (A : Type) :=
| Return (a : A)
| Raise (e : exn).
Arguments Return {A} a.
Arguments Raise {A} e.

Definition bind {A B} (c : outcome A) (k : A -> outcome B) : outcome B :=
  match c with
  | Return a => k a
  | Raise e => Raise e
  end.

#[global] Instance outcome_ret : MRet outcome := @Return.
#[global] Instance outcome_bind : MBind outcome :=
  fun A B k c => bind c k.

(** An optional native object as a Python value: [None] or the object. *)
Definition of_option {A} (inj : A -> pyvalue) (o : option A) : pyvalue :=
  match o with
  | Some a => inj a
  | None => VNone
  end.

(** [value is None] *)
Definition is_None (v : pyvalue) : bool :=
  match v with VNone => true | _ => false end.

(** [isinstance(value, datetime.date)]: [datetime.datetime] is a subclass
    of [datetime.date]. *)
Definition isinstance_date (v : pyvalue) : bool :=
  match v with VDate _ | VDateTime _ => true | _ => false end.

(** [isinstance(value, datetime.time)] *)
Definition isinstance_time (v : pyvalue) : bool :=
  match v with VTime _ => true | _ => false end.

(** [isinstance(value, datetime.datetime)] *)
Definition isinstance_datetime (v : pyvalue) : bool :=
  match v with VDateTime _ => true | _ => false end.

(** [isinstance(value, model)] for a model class given by its name. *)
Definition isinstance_model (model : string) (v : pyvalue) : bool :=
  match v with
  | VInstance m => bool_decide (model ∈ classes m)
  | _ => false
  end.

(** Truth value of an object in a condition: [None], the empty string,
    zero and (in the Python versions of this code, before 3.5) a naive
    midnight are false; dates and model instances are true. *)
Definition truthy (v : pyvalue) : bool :=
  match v with
  | VNone => false
  | VStr s | VSafe s => negb (String.eqb s "")
  | VInt n => negb (Z.eqb n 0)
  | VTime t =>
      negb (Z.eqb (hour t) 0 && Z.eqb (minute t) 0 && Z.eqb (second t) 0
            && Z.eqb (microsecond t) 0)
  | VDate _ | VDateTime _ | VInstance _ => true
  end.

(** ** The framework the blocks call into

    The source imports its parsers, its HTML helpers, its form fields and
    its query interface from the web framework.  The blocks below take
    them as parameters; this part gives the models of them that the
    examples run on. *)

Module html.

Definition dquote : string := String "034"%char "".

(** Modelled from the spec: the framework's HTML escaping
    ([django.utils.html.escape]), not part of the source tree: the five
    characters that are special in HTML are replaced by entities, the
    ampersand first. *)
Fixpoint escape (s : string) : string :=
  match s with
  | EmptyString => EmptyString
  | String c r =>
      let r' := escape r in
      if Ascii.eqb c "&"%char then "&amp;" ++ r'
      else if Ascii.eqb c "<"%char then "&lt;" ++ r'
      else if Ascii.eqb c ">"%char then "&gt;" ++ r'
      else if Ascii.eqb c "034"%char then "&quot;" ++ r'
      else if Ascii.eqb c "'"%char then "&#39;" ++ r'
      else String c r'
  end.

Section text.

(** [force_text]: the text of a value ([str] of it); the text of a
    string is the string. *)
Variable force_text : pyvalue -> string.

(** Modelled from the spec: the framework's [mark_safe], not part of the
    source tree: the same text, marked as trusted for HTML output; text
    that is already marked is returned as it is. *)
Definition mark_safe (v : pyvalue) : pyvalue :=
  match v with
  | VSafe s => VSafe s
  | VStr s => VSafe s
  | _ => VSafe (force_text v)
  end.

Variable esc : string -> string.

(** Modelled from the spec: the framework's [conditional_escape], not
    part of the source tree: what is written for a value where HTML is
    expected: trusted text as it is, anything else escaped. *)
Definition conditional_escape (v : pyvalue) : string :=
  match v with
  | VSafe s => s
  | VStr s => esc s
  | _ => esc (force_text v)
  end.

(** A format string with its arguments in place: literal pieces
    and arguments. *)
Inductive part :=
| Lit (s : string)
| Arg (v : pyvalue).

(** Modelled from the spec: the framework's [format_html], not part of
    the source tree: every argument goes through [conditional_escape],
    the literal pieces are kept, and the result is marked safe. *)
Definition format_html (fmt : list part) : pyvalue :=
  VSafe (String.concat ""
           (map (fun p => match p with
                          | Lit s => s
                          | Arg v => conditional_escape v
                          end) fmt)).

End text.

End html.

Module dateparse.

(** [\d], on text that is taken to be ASCII. *)
Definition is_digit (c : ascii) : bool :=
  let n := nat_of_ascii c in (Nat.leb 48 n && Nat.leb n 57)%bool.

(** The longest prefix of digits, and what follows it. *)
Fixpoint digits (s : string) : string * string :=
  match s with
  | EmptyString => (EmptyString, EmptyString)
  | String c r =>
      if is_digit c
      then let '(d, r') := digits r in (String c d, r')
      else (EmptyString, s)
  end.

(** [int(d)] for a string of decimal digits. *)
Fixpoint int_of_digits (acc : Z) (d : string) : Z :=
  match d with
  | EmptyString => acc
  | String c r => int_of_digits (10 * acc + (Z.of_nat (nat_of_ascii c) - 48)) r
  end.

(** [$]: the end of the string, or a last newline before it. *)
Definition at_end (s : string) : bool :=
  match s with
  | EmptyString => true
  | String c EmptyString => Ascii.eqb c "010"%char
  | _ => false
  end.

(** [date_re]: four digits, a dash, one or two digits, a dash, one or
    two digits, the end.  The groups are year, month and day. *)
Definition date_re_match (s : string) : option (Z * Z * Z) :=
  let '(y, r1) := digits s in
  if negb (Nat.eqb (String.length y) 4) then None else
  match r1 with
  | String "-"%char r2 =>
      let '(m, r3) := digits r2 in
      if negb (Nat.leb 1 (String.length m) && Nat.leb (String.length m) 2)
      then None else
      match r3 with
      | String "-"%char r4 =>
          let '(d, r5) := digits r4 in
          if Nat.leb 1 (String.length d) && Nat.leb (String.length d) 2
             && at_end r5
          then Some (int_of_digits 0 y, int_of_digits 0 m, int_of_digits 0 d)
          else None
      | _ => None
      end
  | _ => None
  end.

Definition is_leap (y : Z) : bool :=
  Z.eqb (y mod 4) 0 && (negb (Z.eqb (y mod 100) 0) || Z.eqb (y mod 400) 0).

Definition days_in_month (y m : Z) : Z :=
  if Z.eqb m 2 then (if is_leap y then 29 else 28)
  else if Z.eqb m 4 || Z.eqb m 6 || Z.eqb m 9 || Z.eqb m 11 then 30
  else 31.

(** The constructor [datetime.date(year, month, day)]: it raises
    [ValueError] outside the calendar. *)
Definition new_date (y m d : Z) : outcome date :=
  if Z.leb 1 y && Z.leb y 9999 && Z.leb 1 m && Z.leb m 12
     && Z.leb 1 d && Z.leb d (days_in_month y m)
  then Return (mkdate y m d)
  else Raise ValueError.

(** Modelled from the spec: the framework's strict date parser
    ([django.utils.dateparse.parse_date]), not part of the source tree.
    It returns [None] when the text does not have the format
    YYYY-MM-DD.  The framework documents, and tests with '2012-04-56',
    that text which has the format but names no calendar date raises
    [ValueError]: the groups are passed to [datetime.date] outside any
    handler.  A value that is not text cannot be matched ([TypeError]). *)
Definition parse_date (v : pyvalue) : outcome (option date) :=
  match v with
  | VStr s | VSafe s =>
      match date_re_match s with
      | Some (y, m, d) => dt ← new_date y m d; Return (Some dt)
      | None => Return None
      end
  | _ => Raise TypeError
  end.

End dateparse.

Module forms.

(** A widget: how a field is drawn and how its submitted value is read.
    [render_with_errors] is present on some widgets only. *)
Record Widget := mkWidget {
  id_for_label : string -> string;
  render : string -> pyvalue -> gmap string pyvalue -> outcome pyvalue;
  render_with_errors :
    option (string -> pyvalue -> gmap string pyvalue -> option (list string)
            -> outcome pyvalue);
  value_from_datadict :
    gmap string pyvalue -> gmap string pyvalue -> string -> outcome pyvalue
}.

Inductive field_kind :=
| KChar
| KURL
| KDate
| KTime
| KDateTime
| KModelChoice (queryset : gmap Z instance).

Record Field := mkField {
  kind : field_kind;
  widget : Widget;
  required : bool;
  help_text : option string;
  max_length : option Z;
  min_length : option Z
}.

(** [EMPTY_VALUES]: what a field takes for no input. *)
Definition is_empty (v : pyvalue) : bool :=
  match v with
  | VNone => true
  | VStr s | VSafe s => String.eqb s ""
  | _ => false
  end.

(** A keyword argument that was not given takes its default. *)
Definition kwarg {A} (given : option A) (dflt : A) : A :=
  match given with Some a => a | None => dflt end.

Section fields.

Variable force_text : pyvalue -> string.
(** The conversion and the format validators of the fields that are
    not plain text (URL, date, time, date-time, model choice). *)
Variable convert : field_kind -> pyvalue -> outcome pyvalue.
Variable format_errors : field_kind -> pyvalue -> list string.
(** The widgets that fields have when none is given. *)
Variable TextInput URLInput DateInput TimeInput DateTimeInput Select : Widget.

(** Modelled from the spec: the framework's form fields
    ([django.forms]), not part of the source tree.  A field is
    required unless it is made optional; [clean] converts the value,
    raises a validation error when a required field receives an empty
    value or when a length or format constraint is violated, and
    returns the converted value otherwise. *)
Definition CharField (required : option bool) (help_text : option string)
    (max_length min_length : option Z) (widget : option Widget) : Field :=
  mkField KChar (kwarg widget TextInput) (kwarg required true)
          help_text max_length min_length.

Definition URLField (required : option bool) (help_text : option string)
    (max_length min_length : option Z) (widget : option Widget) : Field :=
  mkField KURL (kwarg widget URLInput) (kwarg required true)
          help_text max_length min_length.

Definition DateField (required : option bool) (help_text : option string)
    (widget : option Widget) : Field :=
  mkField KDate (kwarg widget DateInput) (kwarg required true)
          help_text None None.

Definition TimeField (required : option bool) (help_text : option string)
    (widget : option Widget) : Field :=
  mkField KTime (kwarg widget TimeInput) (kwarg required true)
          help_text None None.

Definition DateTimeField (required : option bool) (help_text : option string)
    (widget : option Widget) : Field :=
  mkField KDateTime (kwarg widget DateTimeInput) (kwarg required true)
          help_text None None.

Definition ModelChoiceField (queryset : gmap Z instance)
    (required : option bool) (widget : option Widget) : Field :=
  mkField (KModelChoice queryset) (kwarg widget Select)
          (kwarg required true) None None None.

(** The three steps of [Field.clean].  A text field converts an empty
    value to the empty string and anything else to its text. *)
Definition to_python (f : Field) (v : pyvalue) : outcome pyvalue :=
  match kind f with
  | KChar => Return (VStr (if is_empty v then "" else force_text v))
  | k => convert k v
  end.

Definition validate (f : Field) (v : pyvalue) : outcome unit :=
  if is_empty v && required f
  then Raise (ValidationError ["required"])
  else Return tt.

Definition text_length (v : pyvalue) : Z :=
  match v with
  | VStr s | VSafe s => Z.of_nat (String.length s)
  | _ => 0
  end.

Definition length_errors (f : Field) (v : pyvalue) : list string :=
  match kind f with
  | KChar | KURL =>
      app
        (match min_length f with
         | Some n => if Z.ltb (text_length v) n then ["min_length"] else []
         | None => []
         end)
        (match max_length f with
         | Some n => if Z.ltb n (text_length v) then ["max_length"] else []
         | None => []
         end)
  | _ => []
  end.

Definition run_validators (f : Field) (v : pyvalue) : outcome unit :=
  if is_empty v then Return tt else
  match app (length_errors f v)
            (match kind f with KChar => [] | k => format_errors k v end) with
  | [] => Return tt
  | errs => Raise (ValidationError errs)
  end.

(** [Field.clean]: convert, check that a required field is not empty,
    run the validators, return the converted value. *)
Definition clean (f : Field) (v : pyvalue) : outcome pyvalue :=
  v' ← to_python f v;
  validate f v';;
  run_validators f v';;
  Return v'.

End fields.

End forms.

(** The data store: a model class with its table, a finite map from
    primary key to row. *)
Module models.

Record Model := mkModel {
  model_name : string;
  objects : gmap Z instance
}.

Definition is_space (c : ascii) : bool :=
  let n := nat_of_ascii c in
  (Nat.eqb n 32 || (Nat.leb 9 n && Nat.leb n 13))%bool.

Fixpoint lstrip (s : string) : string :=
  match s with
  | String c r => if is_space c then lstrip r else s
  | EmptyString => EmptyString
  end.

Fixpoint all_space (s : string) : bool :=
  match s with
  | String c r => is_space c && all_space r
  | EmptyString => true
  end.

(** [int(s)] for text: an optional sign and decimal digits, with white
    space around them; anything else is a [ValueError]. *)
Definition int_of_text (s : string) : outcome Z :=
  let s1 := lstrip s in
  let '(neg, s2) :=
    match s1 with
    | String "-"%char r => (true, r)
    | String "+"%char r => (false, r)
    | _ => (false, s1)
    end in
  let '(d, rest) := dateparse.digits s2 in
  if negb (Nat.eqb (String.length d) 0) && all_space rest
  then Return (if neg then - dateparse.int_of_digits 0 d
               else dateparse.int_of_digits 0 d)
  else Raise ValueError.

(** The key that a lookup value stands for: an integer, or text that
    reads as one. *)
Definition key_of (v : pyvalue) : outcome Z :=
  match v with
  | VInt k => Return k
  | VStr s | VSafe s => int_of_text s
  | _ => Raise TypeError
  end.

(** Modelled from the spec: the data store's get-by-id query
    ([Model.objects.get(pk=value)]), not part of the source tree: the
    row with that primary key, or [DoesNotExist] when the table has
    none. *)
Definition get (m : Model) (v : pyvalue) : outcome instance :=
  k ← key_of v;
  match objects m !! k with
  | Some r => Return r
  | None => Raise DoesNotExist
  end.

End models.

(** ** The blocks *)

(** What a block has from its base class: its name, its label and the
    class name of its meta options. *)
Record Block := mkBlock {
  name : string;
  label : option string;
  classname : option string
}.

(** Modelled from the spec: [Block.to_python] of blocks/base.py, not part
    of the source tree, which the blocks with no custom conversion logic
    inherit: the value is returned as it is. *)
Definition Block_to_python (v : pyvalue) : outcome pyvalue := Return v.

Module FieldBlock.

(** A field block: the base attributes, the [field] it wraps and the
    [to_python] of its class. *)
Record t := mk {
  block : Block;
  field : forms.Field;
  to_python : pyvalue -> outcome pyvalue
}.

(** The context handed to the form template. *)
Record context := mkcontext {
  c_name : string;
  c_label : option string;
  c_classes : option string;
  c_widget : pyvalue;
  c_label_tag : pyvalue;
  c_field : forms.Field;
  c_errors : option (list string)
}.

Section methods.

Variable force_text : pyvalue -> string.
Variable escape : string -> string.
Variable render_to_string : string -> context -> outcome pyvalue.
Variable convert : forms.field_kind -> pyvalue -> outcome pyvalue.
Variable format_errors : forms.field_kind -> pyvalue -> list string.

(** The two local values that [render_form] builds before it asks the
    widget: the label tag and the attributes of the widget. *)
Definition label_html (self : t) (prefix : string) : pyvalue :=
  let widget := forms.widget (field self) in
  if truthy (of_option VStr (label (block self)))
  then html.format_html force_text escape
         [html.Lit "<label for=";
          html.Arg (VStr (forms.id_for_label widget prefix));
          html.Lit ">";
          html.Arg (of_option VStr (label (block self)));
          html.Lit "</label> "]
  else VStr "".

Definition widget_attrs (self : t) (prefix : string) : gmap string pyvalue :=
  {[ "id" := VStr prefix;
     "placeholder" := of_option VStr (label (block self)) ]}.

Definition render_form (self : t) (value : pyvalue) (prefix : string)
    (errors : option (list string)) : outcome pyvalue :=
  let widget := forms.widget (field self) in
  let label_html := label_html self prefix in
  let widget_attrs := widget_attrs self prefix in
  '(widget_html, widget_has_rendered_errors) ←
    match forms.render_with_errors widget with
    | Some render_with_errors =>
        h ← render_with_errors prefix value widget_attrs errors;
        Return (h, true)
    | None =>
        h ← forms.render widget prefix value widget_attrs;
        Return (h, false)
    end;
  render_to_string "wagtailadmin/block_forms/field.html"
    {| c_name := name (block self);
       c_label := label (block self);
       c_classes := classname (block self);
       c_widget := widget_html;
       c_label_tag := label_html;
       c_field := field self;
       c_errors := if negb widget_has_rendered_errors
                   then errors else None |}.

Definition value_from_datadict (self : t)
    (data files : gmap string pyvalue) (prefix : string) : outcome pyvalue :=
  raw ← forms.value_from_datadict (forms.widget (field self))
          data files prefix;
  to_python self raw.

Definition clean (self : t) (value : pyvalue) : outcome pyvalue :=
  forms.clean force_text convert format_errors (field self) value.

End methods.

End FieldBlock.

Module CharBlock.

Record t := mk { block : Block; field : forms.Field }.

Section methods.
Variable force_text : pyvalue -> string.
Variable TextInput : forms.Widget.

Definition __init__ (required : option bool) (help_text : option string)
    (max_length min_length : option Z) (kwargs : Block) : t :=
  mk kwargs
     (forms.CharField TextInput (Some (forms.kwarg required true))
        help_text max_length min_length None).

Definition get_searchable_content (value : pyvalue) : list string :=
  [force_text value].

Definition as_FieldBlock (self : t) : FieldBlock.t :=
  FieldBlock.mk (block self) (field self) Block_to_python.
End methods.

End CharBlock.

Module URLBlock.

Record t := mk { block : Block; field : forms.Field }.

Section methods.
Variable URLInput : forms.Widget.

Definition __init__ (required : option bool) (help_text : option string)
    (max_length min_length : option Z) (kwargs : Block) : t :=
  mk kwargs
     (forms.URLField URLInput (Some (forms.kwarg required true))
        help_text max_length min_length None).

Definition as_FieldBlock (self : t) : FieldBlock.t :=
  FieldBlock.mk (block self) (field self) Block_to_python.
End methods.

End URLBlock.

Module DateBlock.

(** [field_options] holds the [required] and [help_text] given to the
    constructor. *)
Record t := mk { block : Block; field_options : bool * option string }.

Definition __init__ (required : option bool) (help_text : option string)
    (kwargs : Block) : t :=
  mk kwargs (forms.kwarg required true, help_text).

Section methods.
Variable AdminDateInput : forms.Widget.
Variable DateInput : forms.Widget.
Variable parse_date : pyvalue -> outcome (option date).

Definition field (self : t) : forms.Field :=
  forms.DateField DateInput (Some (fst (field_options self)))
    (snd (field_options self)) (Some AdminDateInput).

Definition to_python (value : pyvalue) : outcome pyvalue :=
  if is_None value || isinstance_date value
  then Return value
  else d ← parse_date value; Return (of_option VDate d).

Definition as_FieldBlock (self : t) : FieldBlock.t :=
  FieldBlock.mk (block self) (field self) to_python.
End methods.

End DateBlock.

Module TimeBlock.

Record t := mk { block : Block; field_options : bool * option string }.

Definition __init__ (required : option bool) (help_text : option string)
    (kwargs : Block) : t :=
  mk kwargs (forms.kwarg required true, help_text).

Section methods.
Variable AdminTimeInput : forms.Widget.
Variable TimeInput : forms.Widget.
Variable parse_time : pyvalue -> outcome (option time).

Definition field (self : t) : forms.Field :=
  forms.TimeField TimeInput (Some (fst (field_options self)))
    (snd (field_options self)) (Some AdminTimeInput).

Definition to_python (value : pyvalue) : outcome pyvalue :=
  if is_None value || isinstance_time value
  then Return value
  else d ← parse_time value; Return (of_option VTime d).

Definition as_FieldBlock (self : t) : FieldBlock.t :=
  FieldBlock.mk (block self) (field self) to_python.
End methods.

End TimeBlock.

Module DateTimeBlock.

Record t := mk { block : Block; field_options : bool * option string }.

Definition __init__ (required : option bool) (help_text : option string)
    (kwargs : Block) : t :=
  mk kwargs (forms.kwarg required true, help_text).

Section methods.
Variable AdminDateTimeInput : forms.Widget.
Variable DateTimeInput : forms.Widget.
Variable parse_datetime : pyvalue -> outcome (option datetime).

Definition field (self : t) : forms.Field :=
  forms.DateTimeField DateTimeInput (Some (fst (field_options self)))
    (snd (field_options self)) (Some AdminDateTimeInput).

Definition to_python (value : pyvalue) : outcome pyvalue :=
  if is_None value || isinstance_datetime value
  then Return value
  else d ← parse_datetime value; Return (of_option VDateTime d).

Definition as_FieldBlock (self : t) : FieldBlock.t :=
  FieldBlock.mk (block self) (field self) to_python.
End methods.

End DateTimeBlock.

Module RichTextBlock.

(** The class has no constructor of its own: a rich text block is made
    from the base keyword arguments alone. *)
Record t := mk { block : Block }.

Definition __init__ (kwargs : Block) : t := mk kwargs.

Section methods.
Variable force_text : pyvalue -> string.
Variable TextInput : forms.Widget.
Variable RichTextArea : forms.Widget.
(** [expand_db_html] of wagtailcore.rich_text, not part of the source
    tree: the stored shorthand expanded to HTML. *)
Variable expand_db_html : pyvalue -> outcome string.

Definition field (self : t) : forms.Field :=
  forms.CharField TextInput None None None None (Some RichTextArea).

Definition render_basic (value : pyvalue) : outcome pyvalue :=
  h ← expand_db_html value;
  Return (html.mark_safe force_text
            (VStr ("<div class=" ++ html.dquote ++ "rich-text"
                   ++ html.dquote ++ ">" ++ h ++ "</div>"))).

Definition get_searchable_content (value : pyvalue) : list string :=
  [force_text value].

Definition as_FieldBlock (self : t) : FieldBlock.t :=
  FieldBlock.mk (block self) (field self) Block_to_python.
End methods.

End RichTextBlock.

Module RawHTMLBlock.

Record t := mk { block : Block; field : forms.Field }.

Section methods.
Variable force_text : pyvalue -> string.
Variable TextInput : forms.Widget.
Variable Textarea : forms.Widget.

Definition __init__ (required : option bool) (help_text : option string)
    (max_length min_length : option Z) (kwargs : Block) : t :=
  mk kwargs
     (forms.CharField TextInput (Some (forms.kwarg required true))
        help_text max_length min_length (Some Textarea)).

Definition render_basic (value : pyvalue) : pyvalue :=
  html.mark_safe force_text value.

Definition as_FieldBlock (self : t) : FieldBlock.t :=
  FieldBlock.mk (block self) (field self) Block_to_python.
End methods.

End RawHTMLBlock.

Module ChooserBlock.

(** The abstract chooser: [target_model] and [widget] are what a
    concrete chooser class provides. *)
Record t := mk {
  block : Block;
  required : bool;
  target_model : models.Model;
  widget : forms.Widget
}.

Definition __init__ (required : option bool) (kwargs : Block)
    (target_model : models.Model) (widget : forms.Widget) : t :=
  mk kwargs (forms.kwarg required true) target_model widget.

Section methods.
Variable force_text : pyvalue -> string.
Variable convert : forms.field_kind -> pyvalue -> outcome pyvalue.
Variable format_errors : forms.field_kind -> pyvalue -> list string.
Variable Select : forms.Widget.

Definition field (self : t) : forms.Field :=
  forms.ModelChoiceField Select (models.objects (target_model self))
    (Some (required self)) (Some (widget self)).

Definition to_python (self : t) (value : pyvalue) : outcome pyvalue :=
  if is_None value
     || isinstance_model (models.model_name (target_model self)) value
  then Return value
  else
    match models.get (target_model self) value with
    | Return m => Return (VInstance m)
    | Raise DoesNotExist => Return VNone
    | Raise e => Raise e
    end.

Definition get_prep_value (self : t) (value : pyvalue) : pyvalue :=
  if isinstance_model (models.model_name (target_model self)) value
  then match value with VInstance m => VInt (id m) | _ => value end
  else value.

Definition as_FieldBlock (self : t) : FieldBlock.t :=
  FieldBlock.mk (block self) (field self) (to_python self).

Definition clean (self : t) (value : pyvalue) : outcome pyvalue :=
  let value :=
    if isinstance_model (models.model_name (target_model self)) value
    then match value with VInstance m => VInt (pk m) | _ => value end
    else value in
  FieldBlock.clean force_text convert format_errors
    (as_FieldBlock self) value.
End methods.

End ChooserBlock.

Module PageChooserBlock.

Record t := mk { block : Block; required : bool }.

Definition __init__ (required : option bool) (kwargs : Block) : t :=
  mk kwargs (forms.kwarg required true).

Section methods.
Variable force_text : pyvalue -> string.
Variable escape : string -> string.
(** [Page] of wagtailcore.models and [AdminPageChooser] of
    wagtailadmin.widgets, not part of the source tree. *)
Variable Page : models.Model.
Variable AdminPageChooser : forms.Widget.

Definition target_model : models.Model := Page.

Definition widget : forms.Widget := AdminPageChooser.

Definition as_ChooserBlock (self : t) : ChooserBlock.t :=
  ChooserBlock.mk (block self) (required self) target_model widget.

Definition render_basic (value : pyvalue) : outcome pyvalue :=
  if truthy value then
    match value with
    | VInstance m =>
        Return (html.format_html force_text escape
                  [html.Lit ("<a href=" ++ html.dquote);
                   html.Arg (VStr (url m));
                   html.Lit (html.dquote ++ ">");
                   html.Arg (VStr (title m));
                   html.Lit "</a>"])
    | _ => Raise AttributeError
    end
  else Return (VStr "").
End methods.

End PageChooserBlock.

(** ** Concrete collaborators for the examples *)

Module sample.

(** The text of the values of this model: strings as they are, [None]
    by its name, a page by its title. *)
Definition force_text (v : pyvalue) : string :=
  match v with
  | VStr s | VSafe s => s
  | VNone => "None"
  | VInstance m => title m
  | _ => ""
  end.

(** A text input: it draws the value and reads the submitted one from
    the data under the field's name; it does not draw errors. *)
Definition TextInput : forms.Widget :=
  forms.mkWidget
    (fun id_ => id_)
    (fun name value attrs =>
       Return (VSafe ("<input name=" ++ html.escape name ++ " value="
                      ++ html.conditional_escape force_text html.escape value
                      ++ ">")))
    None
    (fun data files name => Return (of_option (fun v => v) (data !! name))).

(** A widget that draws the errors itself, after the input. *)
Definition ErrorsInput : forms.Widget :=
  forms.mkWidget
    (fun id_ => id_)
    (forms.render TextInput)
    (Some (fun name value attrs errors =>
             h ← forms.render TextInput name value attrs;
             Return (VSafe (html.conditional_escape force_text html.escape h
                            ++ String.concat ","
                                 (map html.escape
                                    (match errors with
                                     | Some l => l
                                     | None => []
                                     end))))))
    (forms.value_from_datadict TextInput).

(** A template that writes the label tag, the widget and the errors
    that the context carries. *)
Definition render_to_string (template : string) (c : FieldBlock.context)
  : outcome pyvalue :=
  Return (VSafe (html.conditional_escape force_text html.escape
                   (FieldBlock.c_label_tag c)
                 ++ html.conditional_escape force_text html.escape
                      (FieldBlock.c_widget c)
                 ++ String.concat ","
                      (map html.escape
                         (match FieldBlock.c_errors c with
                          | Some l => l
                          | None => []
                          end)))).

(** The conversion of a model choice: the row that the key selects, a
    validation error when there is none; other kinds keep the value. *)
Definition convert (k : forms.field_kind) (v : pyvalue) : outcome pyvalue :=
  match k with
  | forms.KModelChoice queryset =>
      if forms.is_empty v then Return VNone else
      match models.get (models.mkModel "" queryset) v with
      | Return m => Return (VInstance m)
      | Raise _ => Raise (ValidationError ["invalid_choice"])
      end
  | _ => Return v
  end.

Definition format_errors (k : forms.field_kind) (v : pyvalue) : list string :=
  [].

Definition home : instance :=
  mkinstance ["Page"; "Model"] 3 "/" "Welcome".

Definition events : instance :=
  mkinstance ["EventPage"; "Page"; "Model"] 7 "/events/?a=1&b=2" "Events <2015>".

(** The page table: two rows. *)
Definition Page : models.Model :=
  models.mkModel "Page" {[ 3 := home; 7 := events ]}.

Definition block : Block := mkBlock "body" (Some "Body") None.

Definition chooser : ChooserBlock.t :=
  PageChooserBlock.as_ChooserBlock Page TextInput
    (PageChooserBlock.__init__ None block).

(** A parser that accepts no text. *)
Definition no_parse {A} (v : pyvalue) : outcome (option A) :=
  match v with
  | VStr _ | VSafe _ => Return None
  | _ => Raise TypeError
  end.

End sample.

(** What a parser's answer becomes: the parsed object, [None] for text
    that the parser does not recognise, and the parser's own exception,
    which nothing handles. *)
Definition parsed {A} (inj : A -> pyvalue) (r : outcome (option A))
  : outcome pyvalue :=
  match r with
  | Return (Some a) => Return (inj a)
  | Return None => Return VNone
  | Raise e => Raise e
  end.

(** ** The stored form of a date *)

Module encoder.

Definition digit (n : Z) : ascii := ascii_of_nat (Z.to_nat (48 + n)).

Definition pad2 (n : Z) : string :=
  String (digit (n / 10)) (String (digit (n mod 10)) EmptyString).

Definition pad4 (n : Z) : string :=
  String (digit (n / 1000)) (String (digit (n / 100 mod 10)) (pad2 (n mod 100))).

(** Modelled from the spec: how the storage encoder
    ([DjangoJSONEncoder], not part of the source tree) writes a date, as
    the comment in [DateBlock.to_python] says it does: as text, the ISO
    form YYYY-MM-DD of [date.isoformat], with leading zeros. *)
Definition isoformat (d : date) : string :=
  pad4 (year d) ++ "-" ++ pad2 (month d) ++ "-" ++ pad2 (day d).

End encoder.

(** ** Conditions on a table and on text *)

(** Every row of the table of a model is an instance of the model. *)
Definition rows_of_model (M : models.Model) : Prop :=
  map_Forall (fun _ m => models.model_name M ∈ classes m) (models.objects M).

(** Every row is stored under its own [id]. *)
Definition keyed_by_id (M : models.Model) : Prop :=
  map_Forall (fun k m => id m = k) (models.objects M).

(** Two values are equivalent when they are the same value, or when
    they are instances of the model that stand for the same record, the
    one with their primary key, whatever the other fields of the two
    objects hold (the equality of model instances). *)
Definition equivalent (M : models.Model) (a b : pyvalue) : Prop :=
  a = b
  \/ exists x y,
       a = VInstance x /\ b = VInstance y /\ pk x = pk y
       /\ isinstance_model (models.model_name M) a = true
       /\ isinstance_model (models.model_name M) b = true.

(** The characters that open or close markup or an attribute value. *)
Definition markup_char (c : ascii) : bool :=
  Ascii.eqb c "<"%char || Ascii.eqb c ">"%char
  || Ascii.eqb c "034"%char || Ascii.eqb c "'"%char.

Fixpoint free_of_markup (s : string) : bool :=
  match s with
  | EmptyString => true
  | String c r => negb (markup_char c) && free_of_markup r
  end.

(** * Properties *)

(** ** ChooserBlock *)

Lemma get_prep_value_instance self m :
  isinstance_model (models.model_name (ChooserBlock.target_model self))
    (VInstance m) = true ->
  ChooserBlock.get_prep_value self (VInstance m) = VInt (id m).
Proof. intros H. unfold ChooserBlock.get_prep_value. now rewrite H. Qed.

Lemma get_prep_value_other self v :
  isinstance_model (models.model_name (ChooserBlock.target_model self)) v
    = false ->
  ChooserBlock.get_prep_value self v = v.
Proof. intros H. unfold ChooserBlock.get_prep_value. now rewrite H. Qed.

Lemma to_python_native self v :
  is_None v
  || isinstance_model (models.model_name (ChooserBlock.target_model self)) v
    = true ->
  ChooserBlock.to_python self v = Return v.
Proof. intros H. unfold ChooserBlock.to_python. now rewrite H. Qed.

Lemma to_python_key self v k :
  is_None v = false ->
  isinstance_model (models.model_name (ChooserBlock.target_model self)) v
    = false ->
  models.key_of v = Return k ->
  ChooserBlock.to_python self v =
    match models.objects (ChooserBlock.target_model self) !! k with
    | Some m => Return (VInstance m)
    | None => Return VNone
    end.
Proof.
  intros Hn Hi Hk. unfold ChooserBlock.to_python, models.get.
  rewrite Hn, Hi, Hk. simpl.
  now destruct (models.objects (ChooserBlock.target_model self) !! k).
Qed.

Lemma sample_rows_of_model : rows_of_model sample.Page.
Proof. apply (bool_decide_unpack _). vm_compute. exact I. Defined.

Lemma sample_keyed_by_id : keyed_by_id sample.Page.
Proof. apply (bool_decide_unpack _). vm_compute. exact I. Defined.

(** C1: storing a chooser value and loading it again gives an equivalent
    value back while the record still exists.  [get_prep_value] maps an
    instance of the target model to its identifier and leaves every other
    value as it is; [to_python] maps the identifier back to the record
    that the table has under it, which is an instance of the model with
    the same primary key, and the very same object when the row was not
    changed; [None] goes through both unchanged.  The table is one of
    the model: its rows are instances of it, each under its own id. *)
Theorem chooser_round_trip (self : ChooserBlock.t) (m row : instance) :
  rows_of_model (ChooserBlock.target_model self) ->
  keyed_by_id (ChooserBlock.target_model self) ->
  isinstance_model (models.model_name (ChooserBlock.target_model self))
    (VInstance m) = true ->
  models.objects (ChooserBlock.target_model self) !! id m = Some row ->
  ChooserBlock.get_prep_value self (VInstance m) = VInt (id m)
  /\ ChooserBlock.to_python self (VInt (id m)) = Return (VInstance row)
  /\ ChooserBlock.to_python self
       (ChooserBlock.get_prep_value self (VInstance m))
     = Return (VInstance row)
  /\ equivalent (ChooserBlock.target_model self)
       (VInstance row) (VInstance m)
  /\ (row = m ->
      ChooserBlock.to_python self
        (ChooserBlock.get_prep_value self (VInstance m))
      = Return (VInstance m))
  /\ ChooserBlock.to_python self (ChooserBlock.get_prep_value self VNone)
     = Return VNone
  /\ (forall v,
        isinstance_model (models.model_name (ChooserBlock.target_model self))
          v = false ->
        ChooserBlock.get_prep_value self v = v).
Proof.
  intros Hrows Hkeys Hi Hrow.
  assert (Hback : ChooserBlock.to_python self (VInt (id m))
                  = Return (VInstance row)).
  { rewrite (to_python_key self (VInt (id m)) (id m)); try reflexivity.
    now rewrite Hrow. }
  assert (Hround : ChooserBlock.to_python self
                     (ChooserBlock.get_prep_value self (VInstance m))
                   = Return (VInstance row)).
  { now rewrite get_prep_value_instance. }
  split; [ | split; [ | split; [ | split; [ | split; [ | split ] ] ] ] ].
  - now apply get_prep_value_instance.
  - exact Hback.
  - exact Hround.
  - right. exists row, m. repeat split; try exact Hi.
    + unfold pk. exact (map_Forall_lookup_1 _ _ _ _ Hkeys Hrow).
    + simpl. apply bool_decide_eq_true.
      exact (map_Forall_lookup_1 _ _ _ _ Hrows Hrow).
  - intros <-. exact Hround.
  - reflexivity.
  - intros v Hv. now apply get_prep_value_other.
Qed.

(** The record of page 3 was edited after the block value was stored:
    the round trip gives the page as it is now, the same record. *)
Lemma chooser_round_trip_witness :
  models.objects (ChooserBlock.target_model sample.chooser) !! 3
    = Some sample.home
  /\ ChooserBlock.to_python sample.chooser
       (ChooserBlock.get_prep_value sample.chooser
          (VInstance (mkinstance ["Page"] 3 "/old/" "Old title")))
     = Return (VInstance sample.home)
  /\ equivalent (ChooserBlock.target_model sample.chooser)
       (VInstance sample.home)
       (VInstance (mkinstance ["Page"] 3 "/old/" "Old title")).
Proof.
  assert (Hrow : models.objects (ChooserBlock.target_model sample.chooser)
                 !! id (mkinstance ["Page"] 3 "/old/" "Old title")
                 = Some sample.home) by (vm_compute; reflexivity).
  destruct (chooser_round_trip sample.chooser
              (mkinstance ["Page"] 3 "/old/" "Old title") sample.home
              sample_rows_of_model sample_keyed_by_id eq_refl Hrow)
    as (_ & _ & Hround & Hequiv & _).
  split; [ exact Hrow | split; [ exact Hround | exact Hequiv ] ].
Defined.

(** C3: [ChooserBlock.to_python] returns [None] and an instance of the
    target model unchanged; for an identifier it returns the record that
    the table has under it, and [None], not an error, when the table has
    no record under it. *)
Theorem chooser_to_python_cases (self : ChooserBlock.t) :
  ChooserBlock.to_python self VNone = Return VNone
  /\ (forall v,
        isinstance_model (models.model_name (ChooserBlock.target_model self))
          v = true ->
        ChooserBlock.to_python self v = Return v)
  /\ (forall k m,
        models.objects (ChooserBlock.target_model self) !! k = Some m ->
        ChooserBlock.to_python self (VInt k) = Return (VInstance m))
  /\ (forall k,
        models.objects (ChooserBlock.target_model self) !! k = None ->
        ChooserBlock.to_python self (VInt k) = Return VNone).
Proof.
  split; [ | split; [ | split ] ].
  - reflexivity.
  - intros v Hv. apply to_python_native. rewrite Hv. apply orb_true_r.
  - intros k m Hk.
    rewrite (to_python_key self (VInt k) k); try reflexivity. now rewrite Hk.
  - intros k Hk.
    rewrite (to_python_key self (VInt k) k); try reflexivity. now rewrite Hk.
Qed.

(** The same for an identifier that arrives as text, as from a form. *)
Lemma chooser_to_python_text self s k :
  models.int_of_text s = Return k ->
  ChooserBlock.to_python self (VStr s) =
    match models.objects (ChooserBlock.target_model self) !! k with
    | Some m => Return (VInstance m)
    | None => Return VNone
    end.
Proof. intros Hk. now apply to_python_key. Qed.

Example to_python_999 :
  ChooserBlock.to_python sample.chooser (VInt 999) = Return VNone.
Proof. vm_compute. reflexivity. Qed.

Example to_python_7 :
  ChooserBlock.to_python sample.chooser (VInt 7)
  = Return (VInstance sample.events).
Proof. vm_compute. reflexivity. Qed.

Example to_python_text_3 :
  ChooserBlock.to_python sample.chooser (VStr " 3")
  = Return (VInstance sample.home).
Proof. vm_compute. reflexivity. Qed.

(** An error of the query other than the missing record is not turned
    into [None]. *)
Example to_python_bad_key :
  ChooserBlock.to_python sample.chooser (VStr "home") = Raise ValueError.
Proof. vm_compute. reflexivity. Qed.

(** C4: [ChooserBlock.clean] hands the field's [clean] the identifier of
    an instance of the target model, and any other value as it is. *)
Theorem chooser_clean_delegates
    (force_text : pyvalue -> string)
    (convert : forms.field_kind -> pyvalue -> outcome pyvalue)
    (format_errors : forms.field_kind -> pyvalue -> list string)
    (Select : forms.Widget) (self : ChooserBlock.t) :
  (forall m,
     isinstance_model (models.model_name (ChooserBlock.target_model self))
       (VInstance m) = true ->
     ChooserBlock.clean force_text convert format_errors Select self
       (VInstance m)
     = forms.clean force_text convert format_errors
         (ChooserBlock.field Select self) (VInt (pk m)))
  /\ (forall v,
        isinstance_model (models.model_name (ChooserBlock.target_model self))
          v = false ->
        ChooserBlock.clean force_text convert format_errors Select self v
        = forms.clean force_text convert format_errors
            (ChooserBlock.field Select self) v).
Proof.
  split.
  - intros m Hm. unfold ChooserBlock.clean, FieldBlock.clean.
    now rewrite Hm.
  - intros v Hv. unfold ChooserBlock.clean, FieldBlock.clean.
    now rewrite Hv.
Qed.

(** With the field's conversion looking the identifier up again, a page
    of the table is cleaned to itself. *)
Example clean_events :
  ChooserBlock.clean sample.force_text sample.convert sample.format_errors
    sample.TextInput sample.chooser (VInstance sample.events)
  = Return (VInstance sample.events).
Proof. vm_compute. reflexivity. Qed.

Example clean_required :
  ChooserBlock.clean sample.force_text sample.convert sample.format_errors
    sample.TextInput sample.chooser VNone
  = Raise (ValidationError ["required"]).
Proof. vm_compute. reflexivity. Qed.

(** ** DateBlock, TimeBlock and DateTimeBlock *)

Section temporal.

Variable parse_date : pyvalue -> outcome (option date).
Variable parse_time : pyvalue -> outcome (option time).
Variable parse_datetime : pyvalue -> outcome (option datetime).

Lemma date_to_python_native v :
  is_None v || isinstance_date v = true ->
  DateBlock.to_python parse_date v = Return v.
Proof. intros H. unfold DateBlock.to_python. now rewrite H. Qed.

Lemma time_to_python_native v :
  is_None v || isinstance_time v = true ->
  TimeBlock.to_python parse_time v = Return v.
Proof. intros H. unfold TimeBlock.to_python. now rewrite H. Qed.

Lemma datetime_to_python_native v :
  is_None v || isinstance_datetime v = true ->
  DateTimeBlock.to_python parse_datetime v = Return v.
Proof. intros H. unfold DateTimeBlock.to_python. now rewrite H. Qed.

(** Whatever [to_python] returns is [None] or a native object. *)
Lemma date_to_python_result v r :
  DateBlock.to_python parse_date v = Return r ->
  is_None r || isinstance_date r = true.
Proof.
  unfold DateBlock.to_python.
  destruct (is_None v || isinstance_date v) eqn:Hv.
  - intros [= <-]. exact Hv.
  - destruct (parse_date v) as [[d|]|e]; simpl; intros [= <-]; reflexivity.
Qed.

Lemma time_to_python_result v r :
  TimeBlock.to_python parse_time v = Return r ->
  is_None r || isinstance_time r = true.
Proof.
  unfold TimeBlock.to_python.
  destruct (is_None v || isinstance_time v) eqn:Hv.
  - intros [= <-]. exact Hv.
  - destruct (parse_time v) as [[d|]|e]; simpl; intros [= <-]; reflexivity.
Qed.

Lemma datetime_to_python_result v r :
  DateTimeBlock.to_python parse_datetime v = Return r ->
  is_None r || isinstance_datetime r = true.
Proof.
  unfold DateTimeBlock.to_python.
  destruct (is_None v || isinstance_datetime v) eqn:Hv.
  - intros [= <-]. exact Hv.
  - destruct (parse_datetime v) as [[d|]|e]; simpl; intros [= <-]; reflexivity.
Qed.

Lemma date_to_python_text s :
  DateBlock.to_python parse_date (VStr s) = parsed VDate (parse_date (VStr s)).
Proof.
  unfold DateBlock.to_python, parsed. simpl.
  now destruct (parse_date (VStr s)) as [[d|]|e].
Qed.

Lemma time_to_python_text s :
  TimeBlock.to_python parse_time (VStr s) = parsed VTime (parse_time (VStr s)).
Proof.
  unfold TimeBlock.to_python, parsed. simpl.
  now destruct (parse_time (VStr s)) as [[d|]|e].
Qed.

Lemma datetime_to_python_text s :
  DateTimeBlock.to_python parse_datetime (VStr s)
  = parsed VDateTime (parse_datetime (VStr s)).
Proof.
  unfold DateTimeBlock.to_python, parsed. simpl.
  now destruct (parse_datetime (VStr s)) as [[d|]|e].
Qed.

End temporal.

(** C2, as the code has it: [to_python] of the date, time and date-time
    blocks returns [None] and a native object of the block's type
    unchanged, and for text it returns what the framework's parser makes
    of it: the parsed object, [None] when the parser answers [None], and
    the parser's exception when it raises one. *)
Theorem temporal_to_python_cases
    (parse_date : pyvalue -> outcome (option date))
    (parse_time : pyvalue -> outcome (option time))
    (parse_datetime : pyvalue -> outcome (option datetime)) :
  (DateBlock.to_python parse_date VNone = Return VNone
   /\ (forall v, isinstance_date v = true ->
                 DateBlock.to_python parse_date v = Return v)
   /\ (forall s, DateBlock.to_python parse_date (VStr s)
                 = parsed VDate (parse_date (VStr s))))
  /\ (TimeBlock.to_python parse_time VNone = Return VNone
      /\ (forall v, isinstance_time v = true ->
                    TimeBlock.to_python parse_time v = Return v)
      /\ (forall s, TimeBlock.to_python parse_time (VStr s)
                    = parsed VTime (parse_time (VStr s))))
  /\ (DateTimeBlock.to_python parse_datetime VNone = Return VNone
      /\ (forall v, isinstance_datetime v = true ->
                    DateTimeBlock.to_python parse_datetime v = Return v)
      /\ (forall s, DateTimeBlock.to_python parse_datetime (VStr s)
                    = parsed VDateTime (parse_datetime (VStr s)))).
Proof.
  split; [ | split ]; (split; [ reflexivity | split ]).
  - intros v Hv. apply date_to_python_native. rewrite Hv. apply orb_true_r.
  - apply date_to_python_text.
  - intros v Hv. apply time_to_python_native. rewrite Hv. apply orb_true_r.
  - apply time_to_python_text.
  - intros v Hv. apply datetime_to_python_native. rewrite Hv. apply orb_true_r.
  - apply datetime_to_python_text.
Qed.

(** Against C2 as first stated: text that has the date format but names
    no day of the calendar is neither parsed nor turned into [None]; the
    parser's [ValueError] leaves [to_python]. *)
Lemma date_to_python_raises :
  dateparse.date_re_match "2020-02-30" = Some (2020, 2, 30)
  /\ DateBlock.to_python dateparse.parse_date (VStr "2020-02-30")
     = Raise ValueError
  /\ DateBlock.to_python dateparse.parse_date (VStr "2020-02-30")
     <> Return VNone.
Proof. split; [ reflexivity | split; [ reflexivity | discriminate ] ]. Qed.

Example to_python_iso_date :
  DateBlock.to_python dateparse.parse_date (VStr "2020-01-15")
  = Return (VDate (mkdate 2020 1 15)).
Proof. reflexivity. Qed.

Example to_python_date_object :
  DateBlock.to_python dateparse.parse_date (VDate (mkdate 2020 1 15))
  = Return (VDate (mkdate 2020 1 15)).
Proof. reflexivity. Qed.

Example to_python_not_a_date :
  DateBlock.to_python dateparse.parse_date (VStr "not-a-date") = Return VNone.
Proof. reflexivity. Qed.

Example to_python_2012_04_56 :
  DateBlock.to_python dateparse.parse_date (VStr "2012-04-56")
  = Raise ValueError.
Proof. reflexivity. Qed.

(** A date-time is a date: the date block returns it unchanged, while
    the date-time block hands a plain date to its parser. *)
Example date_block_keeps_datetime (d : datetime) :
  DateBlock.to_python dateparse.parse_date (VDateTime d)
  = Return (VDateTime d).
Proof. reflexivity. Qed.

(** C9: [to_python] of the date, time and date-time blocks is idempotent
    wherever it returns: its result is [None] or a native object, which a
    second call returns unchanged. *)
Theorem temporal_to_python_idempotent
    (parse_date : pyvalue -> outcome (option date))
    (parse_time : pyvalue -> outcome (option time))
    (parse_datetime : pyvalue -> outcome (option datetime))
    (v r : pyvalue) :
  (DateBlock.to_python parse_date v = Return r ->
   DateBlock.to_python parse_date r = Return r)
  /\ (TimeBlock.to_python parse_time v = Return r ->
      TimeBlock.to_python parse_time r = Return r)
  /\ (DateTimeBlock.to_python parse_datetime v = Return r ->
      DateTimeBlock.to_python parse_datetime r = Return r).
Proof.
  split; [ | split ]; intros H.
  - apply date_to_python_native. exact (date_to_python_result _ _ _ H).
  - apply time_to_python_native. exact (time_to_python_result _ _ _ H).
  - apply datetime_to_python_native.
    exact (datetime_to_python_result _ _ _ H).
Qed.

Example to_python_twice :
  (r ← DateBlock.to_python dateparse.parse_date (VStr "2020-01-15");
   DateBlock.to_python dateparse.parse_date r)
  = DateBlock.to_python dateparse.parse_date (VStr "2020-01-15").
Proof. reflexivity. Qed.

(** ** FieldBlock *)

Section field_block.

Variable force_text : pyvalue -> string.
Variable escape : string -> string.
Variable render_to_string : string -> FieldBlock.context -> outcome pyvalue.

Lemma render_form_with_errors self value prefix errors rwe h :
  forms.render_with_errors (forms.widget (FieldBlock.field self)) = Some rwe ->
  rwe prefix value (FieldBlock.widget_attrs self prefix) errors = Return h ->
  FieldBlock.render_form force_text escape render_to_string
    self value prefix errors
  = render_to_string "wagtailadmin/block_forms/field.html"
      (FieldBlock.mkcontext (name (FieldBlock.block self))
         (label (FieldBlock.block self)) (classname (FieldBlock.block self))
         h (FieldBlock.label_html force_text escape self prefix)
         (FieldBlock.field self) None).
Proof.
  intros Hw Hh. unfold FieldBlock.render_form. rewrite Hw, Hh. reflexivity.
Qed.

Lemma render_form_without_errors self value prefix errors h :
  forms.render_with_errors (forms.widget (FieldBlock.field self)) = None ->
  forms.render (forms.widget (FieldBlock.field self)) prefix value
    (FieldBlock.widget_attrs self prefix) = Return h ->
  FieldBlock.render_form force_text escape render_to_string
    self value prefix errors
  = render_to_string "wagtailadmin/block_forms/field.html"
      (FieldBlock.mkcontext (name (FieldBlock.block self))
         (label (FieldBlock.block self)) (classname (FieldBlock.block self))
         h (FieldBlock.label_html force_text escape self prefix)
         (FieldBlock.field self) errors).
Proof.
  intros Hw Hh. unfold FieldBlock.render_form. rewrite Hw, Hh. reflexivity.
Qed.

End field_block.

(** C5: [render_form] shows the validation errors on one path only.  A
    widget that has [render_with_errors] is given the errors and the
    template context carries none; any other widget is drawn without
    them and the context carries them. *)
Theorem render_form_errors_once
    (force_text : pyvalue -> string) (escape : string -> string)
    (render_to_string : string -> FieldBlock.context -> outcome pyvalue)
    (self : FieldBlock.t) (value : pyvalue) (prefix : string)
    (errors : option (list string)) (h : pyvalue) :
  (forall rwe,
     forms.render_with_errors (forms.widget (FieldBlock.field self))
       = Some rwe ->
     rwe prefix value (FieldBlock.widget_attrs self prefix) errors
       = Return h ->
     FieldBlock.render_form force_text escape render_to_string
       self value prefix errors
     = render_to_string "wagtailadmin/block_forms/field.html"
         (FieldBlock.mkcontext (name (FieldBlock.block self))
            (label (FieldBlock.block self))
            (classname (FieldBlock.block self))
            h (FieldBlock.label_html force_text escape self prefix)
            (FieldBlock.field self) None))
  /\ (forms.render_with_errors (forms.widget (FieldBlock.field self))
        = None ->
      forms.render (forms.widget (FieldBlock.field self)) prefix value
        (FieldBlock.widget_attrs self prefix) = Return h ->
      FieldBlock.render_form force_text escape render_to_string
        self value prefix errors
      = render_to_string "wagtailadmin/block_forms/field.html"
          (FieldBlock.mkcontext (name (FieldBlock.block self))
             (label (FieldBlock.block self))
             (classname (FieldBlock.block self))
             h (FieldBlock.label_html force_text escape self prefix)
             (FieldBlock.field self) errors)).
Proof.
  split.
  - intros rwe. apply render_form_with_errors.
  - apply render_form_without_errors.
Qed.

Lemma value_from_datadict_Return self data files prefix raw :
  forms.value_from_datadict (forms.widget (FieldBlock.field self))
    data files prefix = Return raw ->
  FieldBlock.value_from_datadict self data files prefix
  = FieldBlock.to_python self raw.
Proof. intros H. unfold FieldBlock.value_from_datadict. now rewrite H. Qed.

Lemma value_from_datadict_Raise self data files prefix e :
  forms.value_from_datadict (forms.widget (FieldBlock.field self))
    data files prefix = Raise e ->
  FieldBlock.value_from_datadict self data files prefix = Raise e.
Proof. intros H. unfold FieldBlock.value_from_datadict. now rewrite H. Qed.

(** The [to_python] that is called is the one of the block's class. *)
Lemma value_from_datadict_date
    (w1 w2 : forms.Widget) (parse_date : pyvalue -> outcome (option date))
    (self : DateBlock.t) (data files : gmap string pyvalue)
    (prefix : string) (raw : pyvalue) :
  forms.value_from_datadict w1 data files prefix = Return raw ->
  FieldBlock.value_from_datadict
    (DateBlock.as_FieldBlock w1 w2 parse_date self) data files prefix
  = DateBlock.to_python parse_date raw.
Proof.
  intros Hraw.
  now rewrite (value_from_datadict_Return
                 (DateBlock.as_FieldBlock w1 w2 parse_date self)
                 data files prefix raw Hraw).
Qed.

(** C6: [value_from_datadict] is [to_python] after the widget's
    [value_from_datadict]: the raw value that the widget reads is
    converted by the block's own [to_python], and an exception of the
    widget is passed on. *)
Theorem value_from_datadict_composes
    (self : FieldBlock.t) (data files : gmap string pyvalue)
    (prefix : string) :
  FieldBlock.value_from_datadict self data files prefix
  = (forms.value_from_datadict (forms.widget (FieldBlock.field self))
       data files prefix ≫= FieldBlock.to_python self)
  /\ (forall raw,
        forms.value_from_datadict (forms.widget (FieldBlock.field self))
          data files prefix = Return raw ->
        FieldBlock.value_from_datadict self data files prefix
        = FieldBlock.to_python self raw)
  /\ (forall e,
        forms.value_from_datadict (forms.widget (FieldBlock.field self))
          data files prefix = Raise e ->
        FieldBlock.value_from_datadict self data files prefix = Raise e).
Proof.
  split; [ reflexivity | split ].
  - intros raw. apply value_from_datadict_Return.
  - intros e. apply value_from_datadict_Raise.
Qed.

(** ** RawHTMLBlock and PageChooserBlock *)

(** C7: [RawHTMLBlock.render_basic] returns the text it is given, marked
    safe: the same characters, and written out without escaping. *)
Theorem raw_html_render_basic
    (force_text : pyvalue -> string) (escape : string -> string) (s : string) :
  RawHTMLBlock.render_basic force_text (VStr s) = VSafe s
  /\ html.conditional_escape force_text escape
       (RawHTMLBlock.render_basic force_text (VStr s)) = s.
Proof. split; reflexivity. Qed.

(** C8: [PageChooserBlock.render_basic] of a page is a link whose [href]
    is the page's URL and whose text is the page's title, both written
    through the HTML escaping of [format_html]; of a value that is not
    set it is the empty string. *)
Theorem page_chooser_render_basic
    (force_text : pyvalue -> string) (escape : string -> string) :
  (forall m,
     PageChooserBlock.render_basic force_text escape (VInstance m)
     = Return (VSafe ("<a href=" ++ html.dquote ++ escape (url m)
                      ++ html.dquote ++ ">" ++ escape (title m) ++ "</a>")))
  /\ (forall v,
        truthy v = false ->
        PageChooserBlock.render_basic force_text escape v = Return (VStr "")).
Proof.
  split.
  - intros m. unfold PageChooserBlock.render_basic, html.format_html.
    unfold html.dquote. simpl. reflexivity.
  - intros v Hv. unfold PageChooserBlock.render_basic. now rewrite Hv.
Qed.

(** ** RichTextBlock and the [required] flag *)

Lemma clean_required_empty force_text convert format_errors f v :
  forms.kind f = forms.KChar ->
  forms.required f = true ->
  forms.is_empty v = true ->
  forms.clean force_text convert format_errors f v
  = Raise (ValidationError ["required"]).
Proof.
  intros Hk Hr Hv. unfold forms.clean, forms.to_python, forms.validate.
  rewrite Hk, Hv. simpl. now rewrite Hr.
Qed.

Lemma clean_optional_empty force_text convert format_errors f v :
  forms.kind f = forms.KChar ->
  forms.required f = false ->
  forms.is_empty v = true ->
  forms.clean force_text convert format_errors f v = Return (VStr "").
Proof.
  intros Hk Hr Hv.
  unfold forms.clean, forms.to_python, forms.validate, forms.run_validators.
  rewrite Hk, Hv. simpl. now rewrite Hr.
Qed.

(** C10: the field of a rich text block is always required: the class
    takes no [required] argument and builds its field with the default,
    so [clean] of an empty value raises a validation error.  The other
    blocks give their field the [required] flag that they are made with. *)
Theorem rich_text_always_required
    (force_text : pyvalue -> string)
    (convert : forms.field_kind -> pyvalue -> outcome pyvalue)
    (format_errors : forms.field_kind -> pyvalue -> list string)
    (TextInput RichTextArea : forms.Widget) (self : RichTextBlock.t) :
  forms.required (RichTextBlock.field TextInput RichTextArea self) = true
  /\ (forall v,
        forms.is_empty v = true ->
        FieldBlock.clean force_text convert format_errors
          (RichTextBlock.as_FieldBlock TextInput RichTextArea self) v
        = Raise (ValidationError ["required"]))
  /\ (forall (b : bool) help maxl minl kwargs w1 w2 model,
        forms.required
          (CharBlock.field (CharBlock.__init__ w1 (Some b) help maxl minl kwargs))
          = b
        /\ forms.required
             (URLBlock.field (URLBlock.__init__ w1 (Some b) help maxl minl kwargs))
           = b
        /\ forms.required
             (RawHTMLBlock.field
                (RawHTMLBlock.__init__ w1 w2 (Some b) help maxl minl kwargs))
           = b
        /\ forms.required
             (DateBlock.field w1 w2 (DateBlock.__init__ (Some b) help kwargs))
           = b
        /\ forms.required
             (TimeBlock.field w1 w2 (TimeBlock.__init__ (Some b) help kwargs))
           = b
        /\ forms.required
             (DateTimeBlock.field w1 w2
                (DateTimeBlock.__init__ (Some b) help kwargs))
           = b
        /\ forms.required
             (ChooserBlock.field w1
                (ChooserBlock.__init__ (Some b) kwargs model w2))
           = b).
Proof.
  split; [ reflexivity | split ].
  - intros v Hv. unfold FieldBlock.clean.
    now apply clean_required_empty.
  - intros. repeat split.
Qed.

(** An optional text block accepts the empty value that a rich text
    block refuses. *)
Example char_block_optional :
  FieldBlock.clean sample.force_text sample.convert sample.format_errors
    (CharBlock.as_FieldBlock
       (CharBlock.__init__ sample.TextInput (Some false) None None None
          sample.block))
    (VStr "")
  = Return (VStr "").
Proof. reflexivity. Qed.

Example rich_text_required :
  FieldBlock.clean sample.force_text sample.convert sample.format_errors
    (RichTextBlock.as_FieldBlock sample.TextInput sample.TextInput
       (RichTextBlock.__init__ sample.block))
    (VStr "")
  = Raise (ValidationError ["required"]).
Proof. reflexivity. Qed.

(** ** The properties at concrete inputs *)

Lemma chooser_to_python_cases_witness :
  models.objects (ChooserBlock.target_model sample.chooser) !! 999 = None
  /\ ChooserBlock.to_python sample.chooser (VInt 999) = Return VNone.
Proof.
  assert (H : models.objects (ChooserBlock.target_model sample.chooser)
              !! 999 = None) by (vm_compute; reflexivity).
  split; [ exact H | ].
  destruct (chooser_to_python_cases sample.chooser) as (_ & _ & _ & Hnone).
  exact (Hnone 999 H).
Defined.

Lemma chooser_clean_delegates_witness :
  ChooserBlock.clean sample.force_text sample.convert sample.format_errors
    sample.TextInput sample.chooser (VInstance sample.events)
  = forms.clean sample.force_text sample.convert sample.format_errors
      (ChooserBlock.field sample.TextInput sample.chooser) (VInt 7).
Proof.
  destruct (chooser_clean_delegates sample.force_text sample.convert
              sample.format_errors sample.TextInput sample.chooser)
    as (Hinst & _).
  apply (Hinst sample.events). vm_compute. reflexivity.
Defined.

Lemma temporal_to_python_cases_witness :
  isinstance_date (VDate (mkdate 2020 1 15)) = true
  /\ DateBlock.to_python dateparse.parse_date (VDate (mkdate 2020 1 15))
     = Return (VDate (mkdate 2020 1 15)).
Proof.
  split; [ reflexivity | ].
  destruct (temporal_to_python_cases dateparse.parse_date
              sample.no_parse sample.no_parse) as ((_ & Hnative & _) & _).
  apply Hnative. reflexivity.
Defined.

Lemma temporal_to_python_idempotent_witness :
  DateBlock.to_python dateparse.parse_date (VStr "2020-01-15")
    = Return (VDate (mkdate 2020 1 15))
  /\ DateBlock.to_python dateparse.parse_date (VDate (mkdate 2020 1 15))
     = Return (VDate (mkdate 2020 1 15)).
Proof.
  assert (H : DateBlock.to_python dateparse.parse_date (VStr "2020-01-15")
              = Return (VDate (mkdate 2020 1 15))) by reflexivity.
  split; [ exact H | ].
  exact (proj1 (temporal_to_python_idempotent dateparse.parse_date
                  sample.no_parse sample.no_parse
                  (VStr "2020-01-15") (VDate (mkdate 2020 1 15))) H).
Defined.

Lemma render_form_errors_once_witness :
  FieldBlock.render_form sample.force_text html.escape sample.render_to_string
    (FieldBlock.mk sample.block
       (forms.CharField sample.TextInput None None None None
          (Some sample.ErrorsInput))
       Block_to_python)
    (VStr "tea") "body" (Some ["This field is required."])
  = Return (VSafe ("<label for=body>Body</label> "
                   ++ "<input name=body value=tea>This field is required.")).
Proof.
  destruct (render_form_errors_once sample.force_text html.escape
              sample.render_to_string
              (FieldBlock.mk sample.block
                 (forms.CharField sample.TextInput None None None None
                    (Some sample.ErrorsInput))
                 Block_to_python)
              (VStr "tea") "body" (Some ["This field is required."])
              (VSafe "<input name=body value=tea>This field is required."))
    as (Hwith & _).
  rewrite (Hwith _ eq_refl eq_refl). reflexivity.
Defined.

(** The same block with a widget that does not draw errors: the
    template writes them, once. *)
Example render_form_plain_widget :
  FieldBlock.render_form sample.force_text html.escape sample.render_to_string
    (FieldBlock.mk sample.block
       (forms.CharField sample.TextInput None None None None None)
       Block_to_python)
    (VStr "tea") "body" (Some ["This field is required."])
  = Return (VSafe ("<label for=body>Body</label> "
                   ++ "<input name=body value=tea>This field is required.")).
Proof. vm_compute. reflexivity. Qed.

Lemma page_chooser_render_basic_witness :
  truthy VNone = false
  /\ PageChooserBlock.render_basic sample.force_text html.escape VNone
     = Return (VStr "")
  /\ PageChooserBlock.render_basic sample.force_text html.escape
       (VInstance sample.events)
     = Return (VSafe ("<a href=" ++ html.dquote ++ "/events/?a=1&amp;b=2"
                      ++ html.dquote ++ ">Events &lt;2015&gt;</a>")).
Proof.
  destruct (page_chooser_render_basic sample.force_text html.escape)
    as (Hpage & Hunset).
  split; [ reflexivity | split ].
  - apply Hunset. reflexivity.
  - rewrite Hpage. reflexivity.
Defined.

Lemma value_from_datadict_composes_witness :
  FieldBlock.value_from_datadict
    (DateBlock.as_FieldBlock sample.TextInput sample.TextInput
       dateparse.parse_date (DateBlock.__init__ None None sample.block))
    {[ "when" := VStr "2020-01-15" ]} ∅ "when"
  = Return (VDate (mkdate 2020 1 15)).
Proof.
  destruct (value_from_datadict_composes
              (DateBlock.as_FieldBlock sample.TextInput sample.TextInput
                 dateparse.parse_date
                 (DateBlock.__init__ None None sample.block))
              {[ "when" := VStr "2020-01-15" ]} ∅ "when")
    as (_ & Hraw & _).
  rewrite (Hraw (VStr "2020-01-15")); [ reflexivity | ].
  vm_compute. reflexivity.
Defined.

(** A field that was not submitted is read as [None] and stays [None]. *)
Example date_block_value_missing :
  FieldBlock.value_from_datadict
    (DateBlock.as_FieldBlock sample.TextInput sample.TextInput
       dateparse.parse_date (DateBlock.__init__ None None sample.block))
    ∅ ∅ "when"
  = Return VNone.
Proof. vm_compute. reflexivity. Qed.

Example chooser_value_from_datadict :
  FieldBlock.value_from_datadict
    (ChooserBlock.as_FieldBlock sample.TextInput sample.chooser)
    {[ "page" := VStr "7" ]} ∅ "page"
  = Return (VInstance sample.events).
Proof. vm_compute. reflexivity. Qed.

Example raw_html_bold :
  RawHTMLBlock.render_basic sample.force_text (VStr "<b>hi</b>")
  = VSafe "<b>hi</b>".
Proof. reflexivity. Qed.

Example parse_date_newline :
  dateparse.parse_date (VStr ("2020-01-15" ++ String "010"%char ""))
  = Return (Some (mkdate 2020 1 15)).
Proof. reflexivity. Qed.

Example parse_date_leap :
  dateparse.parse_date (VStr "2020-02-29") = Return (Some (mkdate 2020 2 29))
  /\ dateparse.parse_date (VStr "2019-02-29") = Raise ValueError
  /\ dateparse.parse_date (VStr "20200115") = Return None
  /\ dateparse.parse_date (VInt 5) = Raise TypeError.
Proof. repeat split. Qed.

(** * Further properties of the blocks *)

(** ** ChooserBlock: what the conversions keep *)

Lemma get_from_table M v m :
  models.get M v = Return m ->
  exists k, models.objects M !! k = Some m.
Proof.
  unfold models.get. destruct (models.key_of v) as [k|e]; simpl.
  - destruct (models.objects M !! k) as [r|] eqn:Hk; intros [= <-]. eauto.
  - discriminate.
Qed.

(** X4: [ChooserBlock.to_python] never lets the missing record out as an
    exception: whatever the value, it returns, or raises something other
    than [DoesNotExist]. *)
Theorem chooser_to_python_never_DoesNotExist (self : ChooserBlock.t)
    (v : pyvalue) :
  (exists r, ChooserBlock.to_python self v = Return r)
  \/ (exists e, ChooserBlock.to_python self v = Raise e /\ e <> DoesNotExist).
Proof.
  unfold ChooserBlock.to_python.
  destruct (is_None v || isinstance_model _ v); [ left; eauto | ].
  destruct (models.get (ChooserBlock.target_model self) v) as [m|e].
  - left; eauto.
  - destruct e; try (left; eauto; fail);
      right; eexists; (split; [ reflexivity | discriminate ]).
Qed.

(** X5: on a table whose rows are instances of the target model,
    [ChooserBlock.to_python] is idempotent wherever it returns: the
    record it loads is returned unchanged by a second call. *)
Theorem chooser_to_python_idempotent (self : ChooserBlock.t)
    (v r : pyvalue) :
  rows_of_model (ChooserBlock.target_model self) ->
  ChooserBlock.to_python self v = Return r ->
  ChooserBlock.to_python self r = Return r.
Proof.
  intros Hrows Hv. apply to_python_native.
  unfold ChooserBlock.to_python in Hv.
  destruct (is_None v || isinstance_model _ v) eqn:Hn.
  - injection Hv as <-. exact Hn.
  - destruct (models.get (ChooserBlock.target_model self) v) as [m|e] eqn:Hg.
    + injection Hv as <-. simpl.
      destruct (get_from_table _ _ _ Hg) as [k Hk].
      apply bool_decide_eq_true.
      exact (map_Forall_lookup_1 _ _ _ _ Hrows Hk).
    + destruct e; try discriminate. injection Hv as <-. reflexivity.
Qed.

(** X6: loading an identifier and storing the result gives the
    identifier back: on a table whose rows are instances of the target
    model stored under their own id, [get_prep_value] after [to_python]
    returns the key of an existing record, and [None] for a key with no
    record. *)
Theorem chooser_load_then_store (self : ChooserBlock.t) (k : Z) :
  rows_of_model (ChooserBlock.target_model self) ->
  keyed_by_id (ChooserBlock.target_model self) ->
  (r ← ChooserBlock.to_python self (VInt k);
   Return (ChooserBlock.get_prep_value self r))
  = Return (match models.objects (ChooserBlock.target_model self) !! k with
            | Some _ => VInt k
            | None => VNone
            end).
Proof.
  intros Hrows Hid.
  rewrite (to_python_key self (VInt k) k); try reflexivity.
  destruct (models.objects (ChooserBlock.target_model self) !! k)
    as [m|] eqn:Hk; simpl.
  - rewrite get_prep_value_instance.
    + now rewrite (map_Forall_lookup_1 _ _ _ _ Hid Hk).
    + simpl. apply bool_decide_eq_true.
      exact (map_Forall_lookup_1 _ _ _ _ Hrows Hk).
  - reflexivity.
Qed.

(** X8: the stored form of a chooser value is never an instance of the
    target model, so [get_prep_value] applied twice is [get_prep_value]. *)
Theorem get_prep_value_stored_form (self : ChooserBlock.t) (v : pyvalue) :
  isinstance_model (models.model_name (ChooserBlock.target_model self))
    (ChooserBlock.get_prep_value self v) = false
  /\ ChooserBlock.get_prep_value self (ChooserBlock.get_prep_value self v)
     = ChooserBlock.get_prep_value self v.
Proof.
  assert (H : isinstance_model
                (models.model_name (ChooserBlock.target_model self))
                (ChooserBlock.get_prep_value self v) = false).
  { unfold ChooserBlock.get_prep_value.
    destruct (isinstance_model _ v) eqn:Hv; [ | exact Hv ].
    destruct v; try discriminate. reflexivity. }
  split; [ exact H | now apply get_prep_value_other ].
Qed.

(** X9: a submitted identifier goes through the chooser's own
    [to_python]: [value_from_datadict] returns the record when the table
    has one under the key that the widget read, and [None], not an
    error, when it has none. *)
Theorem chooser_value_from_datadict_key (Select : forms.Widget)
    (self : ChooserBlock.t) (data files : gmap string pyvalue)
    (prefix : string) (raw : pyvalue) (k : Z) :
  forms.value_from_datadict (ChooserBlock.widget self) data files prefix
    = Return raw ->
  is_None raw = false ->
  isinstance_model (models.model_name (ChooserBlock.target_model self)) raw
    = false ->
  models.key_of raw = Return k ->
  FieldBlock.value_from_datadict (ChooserBlock.as_FieldBlock Select self)
    data files prefix
  = Return (match models.objects (ChooserBlock.target_model self) !! k with
            | Some m => VInstance m
            | None => VNone
            end).
Proof.
  intros Hraw Hn Hi Hk.
  rewrite (value_from_datadict_Return
             (ChooserBlock.as_FieldBlock Select self) data files prefix raw);
    [ | exact Hraw ].
  simpl. rewrite (to_python_key self raw k Hn Hi Hk).
  now destruct (models.objects (ChooserBlock.target_model self) !! k).
Qed.

Lemma chooser_to_python_idempotent_witness :
  ChooserBlock.to_python sample.chooser (VInt 7)
    = Return (VInstance sample.events)
  /\ ChooserBlock.to_python sample.chooser (VInstance sample.events)
     = Return (VInstance sample.events).
Proof.
  assert (H : ChooserBlock.to_python sample.chooser (VInt 7)
              = Return (VInstance sample.events))
    by (vm_compute; reflexivity).
  split; [ exact H | ].
  exact (chooser_to_python_idempotent sample.chooser (VInt 7)
           (VInstance sample.events) sample_rows_of_model H).
Defined.

Lemma chooser_load_then_store_witness :
  (r ← ChooserBlock.to_python sample.chooser (VInt 7);
   Return (ChooserBlock.get_prep_value sample.chooser r))
  = Return (VInt 7).
Proof.
  exact (chooser_load_then_store sample.chooser 7
           sample_rows_of_model sample_keyed_by_id).
Defined.

Lemma chooser_value_from_datadict_key_witness :
  FieldBlock.value_from_datadict
    (ChooserBlock.as_FieldBlock sample.TextInput sample.chooser)
    {[ "page" := VStr "999" ]} ∅ "page"
  = Return VNone.
Proof.
  apply (chooser_value_from_datadict_key sample.TextInput sample.chooser
           {[ "page" := VStr "999" ]} ∅ "page" (VStr "999") 999);
    vm_compute; reflexivity.
Defined.

(** ** DateBlock: a stored date is read back *)

(** The ten digits, by cases on the number as a natural. *)
Lemma digit_cases (P : Z -> Prop) :
  (forall k : nat, (k < 10)%nat -> P (Z.of_nat k)) ->
  forall n, 0 <= n <= 9 -> P n.
Proof.
  intros HP n Hn. rewrite <- (Z2Nat.id n) by lia. apply HP. lia.
Qed.

Lemma is_digit_digit n :
  0 <= n <= 9 -> dateparse.is_digit (encoder.digit n) = true.
Proof.
  revert n. apply digit_cases. intros k Hk.
  do 10 (destruct k as [|k]; [ reflexivity | ]). lia.
Qed.

Lemma value_of_digit n :
  0 <= n <= 9 -> Z.of_nat (nat_of_ascii (encoder.digit n)) - 48 = n.
Proof.
  revert n. apply digit_cases. intros k Hk.
  do 10 (destruct k as [|k]; [ reflexivity | ]). lia.
Qed.

Lemma digits_cons_digit n s :
  0 <= n <= 9 ->
  dateparse.digits (String (encoder.digit n) s)
  = (String (encoder.digit n) (fst (dateparse.digits s)),
     snd (dateparse.digits s)).
Proof.
  intros H. cbn [dateparse.digits]. rewrite (is_digit_digit n H).
  now destruct (dateparse.digits s).
Qed.

Lemma digits_pad2 n r :
  0 <= n <= 99 ->
  dateparse.digits r = (EmptyString, r) ->
  dateparse.digits (encoder.pad2 n ++ r) = (encoder.pad2 n, r).
Proof.
  intros H Hr. unfold encoder.pad2. cbv [String.append].
  rewrite !digits_cons_digit, Hr by (Z.div_mod_to_equations; lia).
  reflexivity.
Qed.

Lemma digits_pad4 n r :
  0 <= n <= 9999 ->
  dateparse.digits r = (EmptyString, r) ->
  dateparse.digits (encoder.pad4 n ++ r) = (encoder.pad4 n, r).
Proof.
  intros H Hr. unfold encoder.pad4, encoder.pad2. cbv [String.append].
  rewrite !digits_cons_digit, Hr by (Z.div_mod_to_equations; lia).
  reflexivity.
Qed.

Lemma int_of_pad2 n :
  0 <= n <= 99 -> dateparse.int_of_digits 0 (encoder.pad2 n) = n.
Proof.
  intros H. unfold encoder.pad2. cbn [dateparse.int_of_digits].
  rewrite !value_of_digit by (Z.div_mod_to_equations; lia).
  Z.div_mod_to_equations; lia.
Qed.

Lemma int_of_pad4 n :
  0 <= n <= 9999 -> dateparse.int_of_digits 0 (encoder.pad4 n) = n.
Proof.
  intros H. unfold encoder.pad4, encoder.pad2.
  cbn [dateparse.int_of_digits].
  rewrite !value_of_digit by (Z.div_mod_to_equations; lia).
  Z.div_mod_to_equations; lia.
Qed.

(** The dates that [datetime.date] makes are within the calendar. *)
Lemma new_date_bounds y m d dt :
  dateparse.new_date y m d = Return dt ->
  dt = mkdate y m d /\ 1 <= y <= 9999 /\ 1 <= m <= 12 /\ 1 <= d <= 31.
Proof.
  unfold dateparse.new_date.
  destruct (Z.leb 1 y && Z.leb y 9999 && Z.leb 1 m && Z.leb m 12
            && Z.leb 1 d && Z.leb d (dateparse.days_in_month y m)) eqn:Hc;
    [ | discriminate ].
  intros [= <-].
  rewrite !andb_true_iff, !Z.leb_le in Hc.
  assert (dateparse.days_in_month y m <= 31).
  { unfold dateparse.days_in_month.
    repeat match goal with |- context [if ?b then _ else _] => destruct b end;
      lia. }
  repeat split; lia.
Qed.

Lemma append_dash s : "-" ++ s = String "-"%char s.
Proof. reflexivity. Qed.

Lemma date_re_match_isoformat y m d :
  1 <= y <= 9999 -> 1 <= m <= 12 -> 1 <= d <= 31 ->
  dateparse.date_re_match (encoder.isoformat (mkdate y m d)) = Some (y, m, d).
Proof.
  intros Hy Hm Hd. unfold dateparse.date_re_match, encoder.isoformat.
  cbn [year month day]. rewrite !append_dash.
  rewrite digits_pad4 by (lia || reflexivity).
  change (String.length (encoder.pad4 y)) with 4%nat.
  cbn [Nat.eqb negb].
  rewrite digits_pad2 by (lia || reflexivity).
  change (String.length (encoder.pad2 m)) with 2%nat.
  cbn [Nat.leb andb negb].
  replace (encoder.pad2 d) with (encoder.pad2 d ++ EmptyString) at 1
    by reflexivity.
  rewrite digits_pad2 by (lia || reflexivity).
  change (String.length (encoder.pad2 d)) with 2%nat.
  cbn [Nat.leb andb dateparse.at_end].
  now rewrite int_of_pad4, !int_of_pad2 by lia.
Qed.

Lemma parse_date_isoformat (d : date) :
  dateparse.new_date (year d) (month d) (day d) = Return d ->
  dateparse.parse_date (VStr (encoder.isoformat d)) = Return (Some d).
Proof.
  intros Hd.
  destruct (new_date_bounds _ _ _ _ Hd) as (Heq & Hy & Hm & Hday).
  unfold dateparse.parse_date.
  rewrite Heq at 1. rewrite date_re_match_isoformat by assumption.
  now rewrite Hd.
Qed.

(** X1: a date that was stored is read back as the same date.  For
    every date of the calendar, [DateBlock.to_python] of the ISO text that
    the storage encoder writes for it, parsed by the framework's date
    parser, returns that date. *)
Theorem date_storage_round_trip (d : date) :
  dateparse.new_date (year d) (month d) (day d) = Return d ->
  DateBlock.to_python dateparse.parse_date (VStr (encoder.isoformat d))
  = Return (VDate d).
Proof.
  intros Hd. unfold DateBlock.to_python.
  cbn [is_None isinstance_date orb].
  now rewrite (parse_date_isoformat d Hd).
Qed.

Lemma date_storage_round_trip_witness :
  encoder.isoformat (mkdate 2015 3 9) = "2015-03-09"
  /\ DateBlock.to_python dateparse.parse_date (VStr "2015-03-09")
     = Return (VDate (mkdate 2015 3 9)).
Proof.
  split; [ reflexivity | ].
  exact (date_storage_round_trip (mkdate 2015 3 9) eq_refl).
Defined.

Lemma parse_date_calendar v d :
  dateparse.parse_date v = Return (Some d) ->
  dateparse.new_date (year d) (month d) (day d) = Return d.
Proof.
  unfold dateparse.parse_date.
  assert (Hs : forall s,
             match dateparse.date_re_match s with
             | Some (y, m, d0) =>
                 dt ← dateparse.new_date y m d0; Return (Some dt)
             | None => Return None
             end = Return (Some d) ->
             dateparse.new_date (year d) (month d) (day d) = Return d).
  { intros s. destruct (dateparse.date_re_match s) as [[[y m] d0]|];
      [ | discriminate ].
    destruct (dateparse.new_date y m d0) as [dt|e] eqn:Hn; [ | discriminate ].
    simpl. intros [= <-].
    destruct (new_date_bounds _ _ _ _ Hn) as (-> & _). exact Hn. }
  destruct v; try discriminate; apply Hs.
Qed.

(** X2: text that [DateBlock.to_python] reads as a date keeps its
    meaning in storage, whatever its spelling: the ISO text of the
    result is read back as the same date. *)
Theorem date_read_then_stored (s : string) (d : date) :
  DateBlock.to_python dateparse.parse_date (VStr s) = Return (VDate d) ->
  DateBlock.to_python dateparse.parse_date (VStr (encoder.isoformat d))
  = Return (VDate d).
Proof.
  intros Hs.
  assert (Hd : dateparse.new_date (year d) (month d) (day d) = Return d).
  { unfold DateBlock.to_python in Hs.
    cbn [is_None isinstance_date orb] in Hs.
    destruct (dateparse.parse_date (VStr s)) as [[d'|]|e] eqn:Hp;
      try discriminate.
    simpl in Hs. injection Hs as ->. exact (parse_date_calendar _ _ Hp). }
  unfold DateBlock.to_python. cbn [is_None isinstance_date orb].
  now rewrite (parse_date_isoformat d Hd).
Qed.

Lemma date_read_then_stored_witness :
  DateBlock.to_python dateparse.parse_date (VStr "2015-3-9")
    = Return (VDate (mkdate 2015 3 9))
  /\ encoder.isoformat (mkdate 2015 3 9) = "2015-03-09"
  /\ DateBlock.to_python dateparse.parse_date (VStr "2015-03-09")
     = Return (VDate (mkdate 2015 3 9)).
Proof.
  split; [ reflexivity | split; [ reflexivity | ] ].
  exact (date_read_then_stored "2015-3-9" (mkdate 2015 3 9) eq_refl).
Defined.

(** ** PageChooserBlock: the link *)

Lemma free_of_markup_app a b :
  free_of_markup (a ++ b) = free_of_markup a && free_of_markup b.
Proof.
  induction a as [|c a IH]; [ reflexivity | ].
  change (String c a ++ b) with (String c (a ++ b)).
  cbn [free_of_markup]. rewrite IH. now rewrite andb_assoc.
Qed.

Lemma escape_free_of_markup s : free_of_markup (html.escape s) = true.
Proof.
  induction s as [|c s IH]; [ reflexivity | ].
  cbn [html.escape].
  destruct (Ascii.eqb c "&") eqn:E1;
    [ now rewrite free_of_markup_app, IH | ].
  destruct (Ascii.eqb c "<") eqn:E2;
    [ now rewrite free_of_markup_app, IH | ].
  destruct (Ascii.eqb c ">") eqn:E3;
    [ now rewrite free_of_markup_app, IH | ].
  destruct (Ascii.eqb c "034") eqn:E4;
    [ now rewrite free_of_markup_app, IH | ].
  destruct (Ascii.eqb c "'") eqn:E5;
    [ now rewrite free_of_markup_app, IH | ].
  cbn [free_of_markup]. unfold markup_char.
  now rewrite E2, E3, E4, E5, IH.
Qed.

(** X11: with the framework's escaping, the page's URL and title cannot
    leave their place in the link: what [render_basic] writes between
    the quotes of [href] and between the tags has no quote and no angle
    bracket, whatever the page's URL and title are. *)
Theorem page_chooser_link_is_closed
    (force_text : pyvalue -> string) (m : instance) :
  PageChooserBlock.render_basic force_text html.escape (VInstance m)
  = Return (VSafe ("<a href=" ++ html.dquote ++ html.escape (url m)
                   ++ html.dquote ++ ">" ++ html.escape (title m) ++ "</a>"))
  /\ free_of_markup (html.escape (url m)) = true
  /\ free_of_markup (html.escape (title m)) = true.
Proof.
  split; [ | split; apply escape_free_of_markup ].
  unfold PageChooserBlock.render_basic, html.format_html, html.dquote.
  simpl. reflexivity.
Qed.

Example link_of_events :
  PageChooserBlock.render_basic sample.force_text html.escape
    (VInstance (mkinstance ["Page"] 1
                  ("/x" ++ html.dquote ++ " onclick=" ++ html.dquote)
                  "<script>"))
  = Return (VSafe ("<a href=" ++ html.dquote
                   ++ "/x&quot; onclick=&quot;" ++ html.dquote
                   ++ ">&lt;script&gt;</a>")).
Proof. reflexivity. Qed.

(** ** The [required] flag of the text blocks *)

(** X13: a text block and a raw HTML block accept an empty value exactly
    when they are made with [required=False]: left out, the flag is
    true, and [clean] of an empty value raises the required error;
    with [False], [clean] returns the empty string. *)
Theorem text_blocks_clean_empty
    (force_text : pyvalue -> string)
    (convert : forms.field_kind -> pyvalue -> outcome pyvalue)
    (format_errors : forms.field_kind -> pyvalue -> list string)
    (TextInput Textarea : forms.Widget)
    (required : option bool) (help_text : option string)
    (max_length min_length : option Z) (kwargs : Block) (v : pyvalue) :
  forms.is_empty v = true ->
  FieldBlock.clean force_text convert format_errors
    (CharBlock.as_FieldBlock
       (CharBlock.__init__ TextInput required help_text max_length
          min_length kwargs)) v
  = (if forms.kwarg required true
     then Raise (ValidationError ["required"]) else Return (VStr ""))
  /\ FieldBlock.clean force_text convert format_errors
       (RawHTMLBlock.as_FieldBlock
          (RawHTMLBlock.__init__ TextInput Textarea required help_text
             max_length min_length kwargs)) v
     = (if forms.kwarg required true
        then Raise (ValidationError ["required"]) else Return (VStr "")).
Proof.
  intros Hv. unfold FieldBlock.clean.
  destruct (forms.kwarg required true) eqn:Hr.
  - split; apply clean_required_empty; try reflexivity; try exact Hv;
      simpl; now rewrite Hr.
  - split; apply clean_optional_empty; try reflexivity; try exact Hv;
      simpl; now rewrite Hr.
Qed.

Lemma text_blocks_clean_empty_witness :
  FieldBlock.clean sample.force_text sample.convert sample.format_errors
    (CharBlock.as_FieldBlock
       (CharBlock.__init__ sample.TextInput None None (Some 10) None
          sample.block)) VNone
  = Raise (ValidationError ["required"]).
Proof.
  exact (proj1 (text_blocks_clean_empty sample.force_text sample.convert
                  sample.format_errors sample.TextInput sample.TextInput
                  None None (Some 10) None sample.block VNone eq_refl)).
Defined.

(** ** What the conversions return *)

(** X3: [to_python] of the date, time and date-time blocks never
    returns text: whenever it returns, the result is [None] or a native
    object of the block's type, whatever the parser is. *)
Theorem temporal_to_python_never_text
    (parse_date : pyvalue -> outcome (option date))
    (parse_time : pyvalue -> outcome (option time))
    (parse_datetime : pyvalue -> outcome (option datetime))
    (v r : pyvalue) :
  (DateBlock.to_python parse_date v = Return r ->
   is_None r || isinstance_date r = true)
  /\ (TimeBlock.to_python parse_time v = Return r ->
      is_None r || isinstance_time r = true)
  /\ (DateTimeBlock.to_python parse_datetime v = Return r ->
      is_None r || isinstance_datetime r = true).
Proof.
  split; [ | split ].
  - apply date_to_python_result.
  - apply time_to_python_result.
  - apply datetime_to_python_result.
Qed.

Lemma temporal_to_python_never_text_witness :
  DateBlock.to_python dateparse.parse_date (VStr "2015-3-9")
    = Return (VDate (mkdate 2015 3 9))
  /\ is_None (VDate (mkdate 2015 3 9))
     || isinstance_date (VDate (mkdate 2015 3 9)) = true.
Proof.
  split; [ reflexivity | ].
  exact (proj1 (temporal_to_python_never_text dateparse.parse_date
                  sample.no_parse sample.no_parse
                  (VStr "2015-3-9") (VDate (mkdate 2015 3 9))) eq_refl).
Defined.

(** X7: storing an instance and loading it again gives what the table
    has under its id at that time: the row that is there now, which need
    not be the object that was stored, and [None] when the record is
    gone. *)
Theorem chooser_store_then_load (self : ChooserBlock.t) (m : instance) :
  isinstance_model (models.model_name (ChooserBlock.target_model self))
    (VInstance m) = true ->
  ChooserBlock.to_python self (ChooserBlock.get_prep_value self (VInstance m))
  = Return (match models.objects (ChooserBlock.target_model self) !! id m with
            | Some row => VInstance row
            | None => VNone
            end).
Proof.
  intros Hm. rewrite (get_prep_value_instance self m Hm).
  rewrite (to_python_key self (VInt (id m)) (id m)); try reflexivity.
  now destruct (models.objects (ChooserBlock.target_model self) !! id m).
Qed.

Lemma chooser_store_then_load_witness :
  ChooserBlock.to_python sample.chooser
    (ChooserBlock.get_prep_value sample.chooser
       (VInstance (mkinstance ["Page"] 12 "/gone/" "Gone")))
  = Return VNone
  /\ ChooserBlock.to_python sample.chooser
       (ChooserBlock.get_prep_value sample.chooser
          (VInstance (mkinstance ["Page"] 3 "/old/" "Old title")))
     = Return (VInstance sample.home).
Proof.
  split.
  - exact (chooser_store_then_load sample.chooser
             (mkinstance ["Page"] 12 "/gone/" "Gone") eq_refl).
  - exact (chooser_store_then_load sample.chooser
             (mkinstance ["Page"] 3 "/old/" "Old title") eq_refl).
Defined.
